(** * Polly API client: a shallow embedding of [api/client/polly_client.py]

    The client is a Python class with two fields ([base_url], [token]) and
    one method per HTTP endpoint.  Every method builds one call to the
    [requests] library, checks the status with [raise_for_status] and
    returns the decoded JSON body.

    The embedding threads the mutable object [self] and the log of the calls
    handed to [requests] through a state monad whose computations may end in
    a Python exception; the state survives the exception, as it does in
    Python. *)

From Stdlib Require Import ZArith List String Ascii Bool Lia.
From Stdlib Require Import DecimalString DecimalPos DecimalZ.
From Stdlib Require Import Floats.
Import ListNotations.

Local Open Scope string_scope.
Local Open Scope Z_scope.

(** ** Python values

    The values that flow through the client: what [json.loads] can produce,
    which is also what the methods take and return. A [dict] is kept as an
    association list in insertion order. *)

#[warnings="-register-all"]
Inductive pyval : Type :=
| PyNone
| PyBool (b : bool)
| PyInt (z : Z)
| PyFloat (f : float)
| PyStr (s : string)
| PyList (items : list pyval)
| PyDict (entries : list (string * pyval)).

(** [bool(v)], the test behind [if not v]. *)
Definition py_truthy (v : pyval) : bool :=
  match v with
  | PyNone => false
  | PyBool b => b
  | PyInt z => negb (z =? 0)
  | PyFloat f => negb (PrimFloat.eqb f PrimFloat.zero)
  | PyStr s => negb (String.eqb s "")
  | PyList items => match items with [] => false | _ :: _ => true end
  | PyDict entries => match entries with [] => false | _ :: _ => true end
  end.

(** [str(n)] for an [int]. *)
Definition str_of_int (z : Z) : string :=
  NilZero.string_of_int (Z.to_int z).

(** [d.get(k)] on the association list of a [dict]; a decoded JSON object
    holds each key once. *)
Fixpoint dict_lookup (k : string) (entries : list (string * pyval)) : option pyval :=
  match entries with
  | [] => None
  | (k', v) :: rest => if String.eqb k k' then Some v else dict_lookup k rest
  end.

(** ** The [requests] library, as the client sees it *)

Inductive Method : Type := GET | POST | DELETE.

(** One call [requests.<method>(url, params=, data=, headers=, json=)]; a
    keyword that the call site does not pass is [None]. *)
Record Request : Type := mkRequest {
  method : Method;
  url : string;
  params : option pyval;
  data : option pyval;
  headers : option pyval;
  json : option pyval
}.

(** A [requests.Response]: the status, the body text, and what
    [response.json()] gives on it ([None] when it raises). *)
Record Response : Type := mkResponse {
  status_code : Z;
  text : string;
  decoded : option pyval
}.

(** Python exceptions, one constructor per place that raises: the guard
    ([ValueError] with its message), the subscript ([KeyError],
    [TypeError]), [response.json()] ([JSONDecodeError]),
    [raise_for_status] ([HTTPError]) and the inside of [requests.<method>]
    ([RequestException], for connection refused, timeout, ...). These are
    the classes of the objects raised; the constructors say nothing of what
    an [except] clause for a base class catches: in Python the
    [JSONDecodeError] of [requests] is also a [ValueError] and a
    [RequestException]. *)
Inductive exn : Type :=
| ValueError (msg : string)
| KeyError (key : string)
| TypeError
| JSONDecodeError
| HTTPError (response : Response)
| RequestException (detail : string).

(** What the network does with one call. *)
Inductive NetOutcome : Type :=
| Answer (response : Response)
| Failure (detail : string).

(** The far side: it sees the calls made so far and the present one. *)
Definition Server : Type := list Request -> Request -> NetOutcome.

(** ** Client state *)

Record PollyClient : Type := mkClient {
  base_url : string;
  token : pyval
}.

(** The object [self] together with the calls handed to [requests] so far,
    oldest first. *)
Record World : Type := mkWorld {
  self : PollyClient;
  sent : list Request
}.

(** ** Computations: state plus exceptions *)

Definition M (A : Type) : Type := World -> (exn + A) * World.

Definition ret {A} (a : A) : M A := fun w => (inr a, w).

Definition bind {A B} (c : M A) (k : A -> M B) : M B :=
  fun w =>
    match c w with
    | (inl e, w') => (inl e, w')
    | (inr a, w') => k a w'
    end.

Definition raise {A} (e : exn) : M A := fun w => (inl e, w).

Definition get_self : M PollyClient := fun w => (inr (self w), w).

Definition put_self (c : PollyClient) : M unit :=
  fun w => (inr tt, mkWorld c (sent w)).

Declare Scope py_scope.
Delimit Scope py_scope with py.
Notation "x <- c ;; k" := (bind c (fun x => k))
  (at level 61, c at next level, right associativity) : py_scope.
Notation "c ;; k" := (bind c (fun _ => k))
  (at level 61, right associativity) : py_scope.
Local Open Scope py_scope.

(** ** The client *)

Section Client.

(** [repr] of the values whose text the interpreter computes: floats,
    lists and dicts. *)
Variable py_repr : pyval -> string.

(** The server the client talks to. *)
Variable server : Server.

(** [str(v)], which is what a replacement field [{v}] of an f-string
    inserts. *)
Definition py_str (v : pyval) : string :=
  match v with
  | PyNone => "None"
  | PyBool true => "True"
  | PyBool false => "False"
  | PyInt z => str_of_int z
  | PyStr s => s
  | PyFloat _ | PyList _ | PyDict _ => py_repr v
  end.

(** [requests.request]: the call is recorded, then answered by the
    server or failed by the transport. *)
Definition requests_call (rq : Request) : M Response :=
  fun w =>
    let w' := mkWorld (self w) (sent w ++ [rq]) in
    match server (sent w) rq with
    | Answer response => (inr response, w')
    | Failure detail => (inl (RequestException detail), w')
    end.

Definition requests_get (url : string) (params : option pyval) : M Response :=
  requests_call (mkRequest GET url params None None None).

Definition requests_post (url : string) (data headers json : option pyval) : M Response :=
  requests_call (mkRequest POST url None data headers json).

Definition requests_delete (url : string) (headers : option pyval) : M Response :=
  requests_call (mkRequest DELETE url None None headers None).

(** [Response.raise_for_status]: an [HTTPError] holding the response for
    a status in 400..599, nothing otherwise. *)
Definition is_http_error (response : Response) : bool :=
  (400 <=? status_code response) && (status_code response <? 600).

Definition raise_for_status (response : Response) : M unit :=
  if is_http_error response then raise (HTTPError response) else ret tt.

(** [Response.json]. *)
Definition response_json (response : Response) : M pyval :=
  match decoded response with
  | Some v => ret v
  | None => raise JSONDecodeError
  end.

(** [v[key]] for a string key. *)
Definition py_getitem (v : pyval) (key : string) : M pyval :=
  match v with
  | PyDict entries =>
      match dict_lookup key entries with
      | Some x => ret x
      | None => raise (KeyError key)
      end
  | _ => raise TypeError
  end.

Definition auth_required : string :=
  "Authentication token is required. Please login first.".

(** [PollyClient(base_url)] *)
Definition init (base_url : string) : PollyClient :=
  mkClient base_url PyNone.

Definition default_base_url : string := "http://localhost:8000".

Definition set_token (token : pyval) : M pyval :=
  s <- get_self ;;
  put_self (mkClient (base_url s) token) ;;
  ret PyNone.

Definition login (username password : string) : M pyval :=
  s <- get_self ;;
  let url := base_url s ++ "/login" in
  response <- requests_post url
    (Some (PyDict [("username", PyStr username); ("password", PyStr password)]))
    None None ;;
  raise_for_status response ;;
  token_data <- response_json response ;;
  access_token <- py_getitem token_data "access_token" ;;
  set_token access_token ;;
  ret token_data.

Definition vote_on_poll (poll_id option_id : Z) : M pyval :=
  s <- get_self ;;
  if negb (py_truthy (token s)) then raise (ValueError auth_required)
  else
    let url := base_url s ++ "/polls/" ++ str_of_int poll_id ++ "/vote" in
    let headers := PyDict [("Authorization", PyStr ("Bearer " ++ py_str (token s)));
                           ("Content-Type", PyStr "application/json")] in
    let payload := PyDict [("option_id", PyInt option_id)] in
    response <- requests_post url None (Some headers) (Some payload) ;;
    raise_for_status response ;;
    response_json response.

Definition get_polls (skip limit : Z) : M pyval :=
  s <- get_self ;;
  let url := base_url s ++ "/polls" in
  let params := PyDict [("skip", PyInt skip); ("limit", PyInt limit)] in
  response <- requests_get url (Some params) ;;
  raise_for_status response ;;
  response_json response.

(** A call site of [get_polls]: an argument left out takes the default of
    the signature, [skip=0] and [limit=10]. *)
Definition get_polls_call (skip limit : option Z) : M pyval :=
  get_polls (match skip with Some n => n | None => 0 end)
            (match limit with Some n => n | None => 10 end).

Definition get_poll (poll_id : Z) : M pyval :=
  s <- get_self ;;
  let url := base_url s ++ "/polls/" ++ str_of_int poll_id in
  response <- requests_get url None ;;
  raise_for_status response ;;
  response_json response.

Definition get_poll_results (poll_id : Z) : M pyval :=
  s <- get_self ;;
  let url := base_url s ++ "/polls/" ++ str_of_int poll_id ++ "/results" in
  response <- requests_get url None ;;
  raise_for_status response ;;
  response_json response.

Definition create_poll (question : string) (options : list pyval) : M pyval :=
  s <- get_self ;;
  if negb (py_truthy (token s)) then raise (ValueError auth_required)
  else
    let url := base_url s ++ "/polls" in
    let headers := PyDict [("Authorization", PyStr ("Bearer " ++ py_str (token s)));
                           ("Content-Type", PyStr "application/json")] in
    let payload := PyDict [("question", PyStr question); ("options", PyList options)] in
    response <- requests_post url None (Some headers) (Some payload) ;;
    raise_for_status response ;;
    response_json response.

Definition delete_poll (poll_id : Z) : M pyval :=
  s <- get_self ;;
  if negb (py_truthy (token s)) then raise (ValueError auth_required)
  else
    let url := base_url s ++ "/polls/" ++ str_of_int poll_id in
    let headers := PyDict [("Authorization", PyStr ("Bearer " ++ py_str (token s)))] in
    response <- requests_delete url (Some headers) ;;
    raise_for_status response ;;
    ret PyNone.

End Client.

(** ** The methods as one family

    [exec] runs a method call given as data, so that a statement can range
    over "every operation". *)

Inductive Op : Type :=
| OpSetToken (token : pyval)
| OpLogin (username password : string)
| OpVoteOnPoll (poll_id option_id : Z)
| OpGetPolls (skip limit : Z)
| OpGetPoll (poll_id : Z)
| OpGetPollResults (poll_id : Z)
| OpCreatePoll (question : string) (options : list pyval)
| OpDeletePoll (poll_id : Z).

Definition exec (py_repr : pyval -> string) (server : Server) (op : Op) : M pyval :=
  match op with
  | OpSetToken t => set_token t
  | OpLogin u p => login server u p
  | OpVoteOnPoll poll_id option_id => vote_on_poll py_repr server poll_id option_id
  | OpGetPolls skip limit => get_polls server skip limit
  | OpGetPoll poll_id => get_poll server poll_id
  | OpGetPollResults poll_id => get_poll_results server poll_id
  | OpCreatePoll q opts => create_poll py_repr server q opts
  | OpDeletePoll poll_id => delete_poll py_repr server poll_id
  end.

(** The methods that start with the token guard. *)
Definition authenticated (op : Op) : bool :=
  match op with
  | OpVoteOnPoll _ _ | OpCreatePoll _ _ | OpDeletePoll _ => true
  | _ => false
  end.

(** The methods that neither read nor write the token. *)
Definition unauthenticated_get (op : Op) : bool :=
  match op with
  | OpGetPolls _ _ | OpGetPoll _ | OpGetPollResults _ => true
  | _ => false
  end.

(** The calls that a run from [w] to [w'] added to the log. *)
Definition calls_made (w w' : World) : list Request :=
  skipn (List.length (sent w)) (sent w').

(** ** Test doubles *)

(** A server that gives the same answer to every call. *)
Definition always (response : Response) : Server :=
  fun _ _ => Answer response.

(** A server that must not be reached. *)
Definition unreachable : Server :=
  fun _ _ => Failure "connection refused".

(** A [repr] for runs in which no float, list or dict is formatted. *)
Definition repr_unused : pyval -> string := fun _ => "".

Definition fresh (c : PollyClient) : World := mkWorld c [].

(** ** Fixtures for concrete runs *)

Definition quoted (s : string) : string :=
  String (ascii_of_nat 34) s ++ String (ascii_of_nat 34) "".

(** The answer of the server to [login("alice", "secret")]. *)
Definition token_entries : list (string * pyval) :=
  [("access_token", PyStr "tok123"); ("token_type", PyStr "bearer")].

Definition token_response : Response :=
  mkResponse 200
    ("{" ++ quoted "access_token" ++ ": " ++ quoted "tok123" ++ ", "
         ++ quoted "token_type" ++ ": " ++ quoted "bearer" ++ "}")
    (Some (PyDict token_entries)).

Definition vote_body : pyval :=
  PyDict [("id", PyInt 1); ("user_id", PyInt 3); ("option_id", PyInt 7)].

Definition vote_response : Response :=
  mkResponse 200
    ("{" ++ quoted "id" ++ ": 1, " ++ quoted "user_id" ++ ": 3, "
         ++ quoted "option_id" ++ ": 7}")
    (Some vote_body).

Definition not_found : Response :=
  mkResponse 404 ("{" ++ quoted "detail" ++ ": " ++ quoted "Poll not found" ++ "}")
    (Some (PyDict [("detail", PyStr "Poll not found")])).

Definition unauthorized : Response :=
  mkResponse 401 "" None.

Definition no_content : Response :=
  mkResponse 204 "" None.

Definition empty_page : Response :=
  mkResponse 200 "[]" (Some (PyList [])).

(** A client on the default URL, before and after a login. *)
Definition anonymous : World := fresh (init default_base_url).

Definition logged_in : World :=
  fresh (mkClient default_base_url (PyStr "tok123")).

(** A run from [w] that ended in [out] made the call [rq] and no other,
    and the transport's failure or the status of the answer decided how it
    ended. *)
Definition one_call_outcome (server : Server) (w : World)
    (out : (exn + pyval) * World) (rq : Request) : Prop :=
  sent (snd out) = (sent w ++ [rq])%list
  /\ match server (sent w) rq with
     | Failure detail =>
         fst out = inl (RequestException detail) /\ self (snd out) = self w
     | Answer response =>
         if is_http_error response
         then fst out = inl (HTTPError response) /\ self (snd out) = self w
         else forall r, fst out <> inl (HTTPError r)
     end.

(** ** Reading the log *)

(** The value of one header of a call, when the call passes it. *)
Definition header_of (rq : Request) (name : string) : option pyval :=
  match headers rq with
  | Some (PyDict hs) => dict_lookup name hs
  | _ => None
  end.

(** The methods that end with [return response.json()] or, for [login],
    with the decoded body in hand. *)
Definition returns_body (op : Op) : bool :=
  match op with
  | OpSetToken _ | OpDeletePoll _ => false
  | _ => true
  end.

(** The methods that talk to the server: all but [set_token]. *)
Definition makes_call (op : Op) : bool :=
  match op with
  | OpSetToken _ => false
  | _ => true
  end.

(** The method gets past its first lines on the client [c]: it has no
    guard, or the token passes [if not self.token]. *)
Definition passes_guard (op : Op) (c : PollyClient) : bool :=
  negb (authenticated op) || py_truthy (token c).

(** A caller that runs method calls one after the other on the same client
    and goes on after an exception. *)
Fixpoint run_ops (py_repr : pyval -> string) (server : Server)
    (ops : list Op) (w : World) : World :=
  match ops with
  | [] => w
  | op :: rest => run_ops py_repr server rest (snd (exec py_repr server op w))
  end.

(** A path segment read back as a poll id, as a router does. *)
Definition int_of_str (s : string) : option Z :=
  option_map Z.of_int (NilZero.int_of_string s).

(** The part of a path before its first slash. *)
Fixpoint before_slash (s : string) : string :=
  match s with
  | EmptyString => EmptyString
  | String c rest =>
      if Ascii.eqb c "/" then EmptyString else String c (before_slash rest)
  end.

(** The call that a method hands to [requests] when it is run on the
    client [c], read from the log of a run against a dead network; [None]
    when the method stops before any call. *)
Definition call_of (py_repr : pyval -> string) (op : Op) (c : PollyClient)
    : option Request :=
  hd_error (sent (snd (exec py_repr (fun _ _ => Failure "") op (mkWorld c [])))).

(** More fixtures. *)
Definition blank_token_entries : list (string * pyval) :=
  [("access_token", PyStr ""); ("token_type", PyStr "bearer")].

Definition blank_token_response : Response :=
  mkResponse 200
    ("{" ++ quoted "access_token" ++ ": " ++ quoted "" ++ ", "
         ++ quoted "token_type" ++ ": " ++ quoted "bearer" ++ "}")
    (Some (PyDict blank_token_entries)).

Definition poll_body : pyval :=
  PyDict [("id", PyInt 7); ("question", PyStr "Best color?")].

Definition poll_response : Response :=
  mkResponse 200
    ("{" ++ quoted "id" ++ ": 7, " ++ quoted "question" ++ ": "
         ++ quoted "Best color?" ++ "}")
    (Some poll_body).

Definition created : Response :=
  mkResponse 201
    ("{" ++ quoted "id" ++ ": 7, " ++ quoted "question" ++ ": "
         ++ quoted "Best color?" ++ "}")
    (Some poll_body).

Definition multiple_choices : Response :=
  mkResponse 300 "" None.

Definition token_on_300 : Response :=
  mkResponse 300
    ("{" ++ quoted "access_token" ++ ": " ++ quoted "tok123" ++ ", "
         ++ quoted "token_type" ++ ": " ++ quoted "bearer" ++ "}")
    (Some (PyDict token_entries)).

Definition missing_token_response : Response :=
  mkResponse 200 ("{" ++ quoted "token_type" ++ ": " ++ quoted "bearer" ++ "}")
    (Some (PyDict [("token_type", PyStr "bearer")])).

(** ** Auxiliary facts *)

Lemma skipn_length_app {A} (l l' : list A) :
  skipn (List.length l) (l ++ l') = l'.
Proof.
  induction l as [| a l IH]; simpl; [reflexivity | exact IH].
Qed.

Lemma calls_made_one w c rq :
  calls_made w (mkWorld c (sent w ++ [rq])) = [rq].
Proof.
  unfold calls_made; simpl. apply skipn_length_app.
Qed.

Lemma calls_made_none w c :
  calls_made w (mkWorld c (sent w)) = [].
Proof.
  unfold calls_made; simpl.
  rewrite <- (app_nil_r (sent w)) at 2. apply skipn_length_app.
Qed.

Lemma calls_made_self w : calls_made w w = [].
Proof.
  destruct w as [c l]. apply (calls_made_none (mkWorld c l) c).
Qed.

Lemma is_http_error_iff response :
  is_http_error response = true <-> 400 <= status_code response < 600.
Proof.
  unfold is_http_error. rewrite andb_true_iff, Z.leb_le, Z.ltb_lt. tauto.
Qed.

Lemma is_http_error_2xx response :
  200 <= status_code response < 300 -> is_http_error response = false.
Proof.
  intros H. destruct (is_http_error response) eqn:E; [| reflexivity].
  apply is_http_error_iff in E. lia.
Qed.

(** Unfolds a method down to the monad's plumbing. *)
Ltac unfold_method :=
  unfold exec, login, vote_on_poll, get_polls_call, get_polls, get_poll,
    get_poll_results, create_poll, delete_poll, set_token,
    requests_post, requests_get, requests_delete, requests_call,
    raise_for_status, response_json, py_getitem,
    bind, ret, raise, get_self, put_self;
  cbn [fst snd self sent base_url token].

(** Splits on everything a run can branch on: the answer of the server,
    the status test, the decoding, the key lookup. *)
Ltac split_run :=
  repeat match goal with
    | |- context [match ?srv ?h ?rq with Answer _ => _ | Failure _ => _ end] =>
        let E := fresh "Hnet" in destruct (srv h rq) eqn:E
    | |- context [if is_http_error ?r then _ else _] =>
        let E := fresh "Hstatus" in destruct (is_http_error r) eqn:E
    | |- context [match decoded ?r with Some _ => _ | None => _ end] =>
        let E := fresh "Hjson" in destruct (decoded r) eqn:E
    | |- context [match dict_lookup ?k ?d with Some _ => _ | None => _ end] =>
        let E := fresh "Hkey" in destruct (dict_lookup k d) eqn:E
    | |- context [match ?v with PyDict _ => _ | _ => _ end] =>
        is_var v; destruct v
    end;
  cbn [fst snd self sent base_url token].

(** A method that never writes [self]: every branch of its run ends in the
    client it started from. *)
Ltac plain_frame :=
  repeat split; try (split_run; reflexivity);
  let H := fresh "H" in intros H; exfalso; apply H; split_run; reflexivity.

(** The same for a method behind the token guard. *)
Ltac guarded_frame :=
  match goal with
  | w : World |- _ =>
      destruct (py_truthy (token (self w))); cbn [negb fst snd]; plain_frame
  end.

(** ** The token guard *)

(** C1, as the code has it: an authenticated operation ([vote_on_poll],
    [create_poll], [delete_poll]) ends in the local authentication error,
    the [ValueError] with the fixed message, exactly when the token is falsy
    ([None], the empty string, or any other value that [not] rejects); in
    that case the world is left as it was, so no call reached [requests]. *)
Theorem auth_error_iff_token_falsy
    (py_repr : pyval -> string) (server : Server) (op : Op) (w : World) :
  authenticated op = true ->
  (fst (exec py_repr server op w) = inl (ValueError auth_required)
     <-> py_truthy (token (self w)) = false)
  /\ (py_truthy (token (self w)) = false ->
        snd (exec py_repr server op w) = w
        /\ calls_made w (snd (exec py_repr server op w)) = []).
Proof.
  intros Hauth.
  destruct op; try discriminate Hauth; clear Hauth; unfold_method;
    destruct (py_truthy (token (self w))) eqn:Htok; cbn [negb fst snd].
  all: split; [split |]; intros H; try discriminate H; try reflexivity.
  all: try (split; [reflexivity | apply calls_made_self]).
  all: revert H; split_run; intros H; discriminate H.
Qed.

Lemma auth_error_iff_token_falsy_witness :
  authenticated (OpDeletePoll 5) = true
  /\ (fst (exec repr_unused unreachable (OpDeletePoll 5)
             (fresh (init default_base_url)))
        = inl (ValueError auth_required)
      <-> py_truthy (token (self (fresh (init default_base_url)))) = false).
Proof.
  split; [reflexivity |].
  exact (proj1 (auth_error_iff_token_falsy repr_unused unreachable
                  (OpDeletePoll 5) (fresh (init default_base_url)) eq_refl)).
Defined.

(** C1 as stated fails: after [set_token("")] the token is not [None], yet
    [vote_on_poll(42, 7)] raises the local authentication error, without a
    call to [requests]. *)
Lemma auth_error_with_empty_token :
  let w := snd (set_token (PyStr "") (fresh (init default_base_url))) in
  token (self w) <> PyNone
  /\ exec repr_unused unreachable (OpVoteOnPoll 42 7) w
     = (inl (ValueError auth_required), w)
  /\ sent w = [].
Proof.
  cbv zeta. split; [discriminate | split; reflexivity].
Qed.

(** ** One call per operation *)

(** An operation makes no call, or exactly one. *)
Lemma exec_calls py_repr server op w :
  sent (snd (exec py_repr server op w)) = sent w
  \/ exists rq, one_call_outcome server w (exec py_repr server op w) rq.
Proof.
  destruct op; unfold_method;
    try (destruct (py_truthy (token (self w))) eqn:Htok; cbn [negb fst snd]);
    try (left; reflexivity).
  all: right; eexists; unfold one_call_outcome.
  all: split; [ split_run; reflexivity |].
  all: split_run; try (split; reflexivity); intros r' H; discriminate H.
Qed.

Lemma calls_made_app w w' l :
  sent w' = (sent w ++ l)%list -> calls_made w w' = l.
Proof.
  intros H. unfold calls_made. rewrite H. apply skipn_length_app.
Qed.

Lemma calls_made_same w w' :
  sent w' = sent w -> calls_made w w' = [].
Proof.
  intros H. apply calls_made_app. rewrite H. symmetry. apply app_nil_r.
Qed.

(** A call that an operation made is the only one it made. *)
Lemma exec_call_inv py_repr server op w rq :
  In rq (calls_made w (snd (exec py_repr server op w))) ->
  one_call_outcome server w (exec py_repr server op w) rq.
Proof.
  intros Hin.
  destruct (exec_calls py_repr server op w) as [Hnone | [rq0 Hone]].
  - rewrite (calls_made_same _ _ Hnone) in Hin. destruct Hin.
  - rewrite (calls_made_app _ _ _ (proj1 Hone)) in Hin.
    destruct Hin as [<- | []]. exact Hone.
Qed.

(** ** HTTP errors *)

(** A method that talks to the server and is past its guard makes its
    call, whatever the server does with it. *)
Lemma exec_makes_call py_repr server op w :
  makes_call op = true ->
  passes_guard op (self w) = true ->
  exists rq, one_call_outcome server w (exec py_repr server op w) rq.
Proof.
  intros Hop Hguard. unfold passes_guard in Hguard.
  destruct op; try discriminate Hop; cbn [authenticated negb orb] in Hguard;
    unfold_method; try rewrite Hguard; cbn [negb];
    eexists; unfold one_call_outcome.
  all: split; [ split_run; reflexivity |].
  all: split_run; try (split; reflexivity); intros r' H; discriminate H.
Qed.

(** C3: every method that talks to the server, once past its guard, hands
    exactly one call to [requests], whatever comes back (no retry); when
    the server answers that call with a 4xx or 5xx status, the method ends
    in the [HTTPError] that holds that very response (status code and body
    as received), and the client is left as it was (no fallback). *)
Theorem http_error_propagates
    (py_repr : pyval -> string) (server : Server) (op : Op) (w : World) :
  makes_call op = true ->
  passes_guard op (self w) = true ->
  exists rq,
    calls_made w (snd (exec py_repr server op w)) = [rq]
    /\ forall response,
         server (sent w) rq = Answer response ->
         400 <= status_code response < 600 ->
         fst (exec py_repr server op w) = inl (HTTPError response)
         /\ self (snd (exec py_repr server op w)) = self w.
Proof.
  intros Hop Hguard.
  destruct (exec_makes_call py_repr server op w Hop Hguard) as [rq [Hsent Hout]].
  exists rq. split; [apply calls_made_app; exact Hsent |].
  intros response Hans Hstatus.
  rewrite Hans in Hout.
  rewrite (proj2 (is_http_error_iff response) Hstatus) in Hout.
  exact Hout.
Qed.

(** C7, as the code has it: every method that talks to the server, once
    past its guard, makes its one call, and when the call is answered it
    ends in an HTTP error exactly when the status is in 400..599. On any
    other status, 3xx included, it goes on past the status check:
    [delete_poll] returns [None]; the other methods decode the body and
    return it, [login] after reading its [access_token]; the only
    exceptions left are those of the decoding and of the subscript. *)
Theorem http_error_iff_4xx_5xx
    (py_repr : pyval -> string) (server : Server) (op : Op) (w : World) :
  makes_call op = true ->
  passes_guard op (self w) = true ->
  exists rq,
    calls_made w (snd (exec py_repr server op w)) = [rq]
    /\ forall response,
         server (sent w) rq = Answer response ->
         ((exists r, fst (exec py_repr server op w) = inl (HTTPError r))
          <-> 400 <= status_code response < 600)
         /\ (400 <= status_code response < 600 ->
             fst (exec py_repr server op w) = inl (HTTPError response))
         /\ (~ (400 <= status_code response < 600) ->
             fst (exec py_repr server op w)
             = match op with
               | OpDeletePoll _ => inr PyNone
               | OpLogin _ _ =>
                   match decoded response with
                   | Some (PyDict entries) =>
                       match dict_lookup "access_token" entries with
                       | Some _ => inr (PyDict entries)
                       | None => inl (KeyError "access_token")
                       end
                   | Some _ => inl TypeError
                   | None => inl JSONDecodeError
                   end
               | _ =>
                   match decoded response with
                   | Some body => inr body
                   | None => inl JSONDecodeError
                   end
               end).
Proof.
  intros Hop Hguard. unfold passes_guard in Hguard.
  destruct op; try discriminate Hop; cbn [authenticated negb orb] in Hguard;
    unfold_method; try rewrite Hguard; cbn [negb]; eexists.
  all: split; [ apply calls_made_app; split_run; reflexivity |].
  all: intros response Hans; rewrite Hans.
  all: destruct (is_http_error response) eqn:E; cbn [fst snd].
  all: try (apply is_http_error_iff in E; split; [| split];
            [ split; [intros _; exact E | intros _; eexists; reflexivity]
            | intros _; reflexivity
            | intros Hn; contradiction ]).
  all: assert (Hn : ~ (400 <= status_code response < 600))
         by (intros Hs; apply is_http_error_iff in Hs; congruence).
  all: split; [| split]; try (intros Hs; contradiction).
  all: try (split; [| intros Hs; contradiction]).
  all: try (intros [r Hr]; revert Hr; split_run; intros Hr; discriminate Hr).
  all: intros _; split_run; reflexivity.
Qed.

(** C7 as stated fails: [get_polls()] answered with status 300 and a JSON
    body returns the decoded body. *)
Lemma get_polls_returns_on_300 :
  let response := mkResponse 300 "[]" (Some (PyList [])) in
  ~ (200 <= status_code response < 300)
  /\ fst (get_polls_call (always response) None None
            (fresh (init default_base_url)))
     = inr (PyList []).
Proof.
  cbv zeta. split; [cbn; lia | reflexivity].
Qed.

(** ** What the operations change *)

(** C8: no operation changes [base_url]; the token changes only under
    [set_token] or a [login] that returns; the six other methods leave the
    whole client as it was. *)
Theorem client_state_frame
    (py_repr : pyval -> string) (server : Server) (op : Op) (w : World) :
  base_url (self (snd (exec py_repr server op w))) = base_url (self w)
  /\ (token (self (snd (exec py_repr server op w))) <> token (self w) ->
        (exists t, op = OpSetToken t)
        \/ (exists u p v, op = OpLogin u p
                          /\ fst (exec py_repr server op w) = inr v))
  /\ match op with
     | OpSetToken _ | OpLogin _ _ => True
     | _ => self (snd (exec py_repr server op w)) = self w
     end.
Proof.
  destruct op as [t | u p | | | | | |]; unfold_method.
  - (* set_token *)
    repeat split. intros _. left. exists t. reflexivity.
  - (* login *)
    repeat split; [split_run; reflexivity |].
    intros H. right. exists u, p.
    revert H. split_run; intros H; try (exfalso; apply H; reflexivity).
    eexists. split; reflexivity.
  - guarded_frame.
  - plain_frame.
  - plain_frame.
  - plain_frame.
  - guarded_frame.
  - guarded_frame.
Qed.

(** C9: a [login] that ends in an HTTP error leaves the client, and so the
    token, as it was. *)
Theorem failed_login_keeps_token
    (server : Server) (username password : string) (w : World)
    (response : Response) :
  fst (login server username password w) = inl (HTTPError response) ->
  self (snd (login server username password w)) = self w
  /\ token (self (snd (login server username password w))) = token (self w).
Proof.
  unfold_method. split_run; intros H; try discriminate H; split; reflexivity.
Qed.

(** ** The token and the public reads *)

(** C10: [get_polls], [get_poll] and [get_poll_results], run on two clients
    that differ in the token only, make the same call, which passes no
    headers at all, and end the same way when the call is answered the same
    way. *)
Theorem unauthenticated_get_ignores_token
    (py_repr : pyval -> string) (server1 server2 : Server) (op : Op)
    (base : string) (token1 token2 : pyval) (log : list Request) :
  unauthenticated_get op = true ->
  exists rq,
    headers rq = None
    /\ sent (snd (exec py_repr server1 op (mkWorld (mkClient base token1) log)))
       = (log ++ [rq])%list
    /\ sent (snd (exec py_repr server2 op (mkWorld (mkClient base token2) log)))
       = (log ++ [rq])%list
    /\ (server1 log rq = server2 log rq ->
        fst (exec py_repr server1 op (mkWorld (mkClient base token1) log))
        = fst (exec py_repr server2 op (mkWorld (mkClient base token2) log))).
Proof.
  intros Hop.
  destruct op; try discriminate Hop; clear Hop; unfold_method.
  all: eexists; split; [| split; [| split]].
  all: try (intros Heq; rewrite Heq).
  all: try (split_run; reflexivity).
  all: reflexivity.
Qed.

(** ** The request and the result of each method *)

(** C2: [login] makes one call, a POST to [/login] whose form data are the
    fields [username] and [password]; when the answer has a 2xx status and
    its decoded body holds an [access_token], that value becomes the token
    and the whole decoded body is returned. *)
Theorem login_posts_form_and_stores_token
    (server : Server) (username password : string) (w : World) :
  calls_made w (snd (login server username password w))
  = [mkRequest POST (base_url (self w) ++ "/login") None
       (Some (PyDict [("username", PyStr username);
                      ("password", PyStr password)]))
       None None]
  /\ forall response entries access_token,
       server (sent w)
         (mkRequest POST (base_url (self w) ++ "/login") None
            (Some (PyDict [("username", PyStr username);
                           ("password", PyStr password)]))
            None None)
       = Answer response ->
       200 <= status_code response < 300 ->
       decoded response = Some (PyDict entries) ->
       dict_lookup "access_token" entries = Some access_token ->
       fst (login server username password w) = inr (PyDict entries)
       /\ self (snd (login server username password w))
          = mkClient (base_url (self w)) access_token.
Proof.
  split.
  - apply calls_made_app. unfold_method. split_run; reflexivity.
  - intros response entries access_token Hans Hstatus Hjson Hkey.
    unfold_method. rewrite Hans.
    rewrite (is_http_error_2xx _ Hstatus), Hjson, Hkey.
    split; reflexivity.
Qed.

(** C4: with a token set, [vote_on_poll] makes one call, a POST to
    [/polls/{poll_id}/vote] with the JSON body [{"option_id": option_id}]
    and the headers [Authorization: Bearer <token>] and
    [Content-Type: application/json]; on a 2xx answer it returns the decoded
    body as it is. *)
Theorem vote_on_poll_request_and_result
    (py_repr : pyval -> string) (server : Server) (poll_id option_id : Z)
    (w : World) :
  py_truthy (token (self w)) = true ->
  calls_made w (snd (vote_on_poll py_repr server poll_id option_id w))
  = [mkRequest POST
       (base_url (self w) ++ "/polls/" ++ str_of_int poll_id ++ "/vote")
       None None
       (Some (PyDict
                [("Authorization",
                  PyStr ("Bearer " ++ py_str py_repr (token (self w))));
                 ("Content-Type", PyStr "application/json")]))
       (Some (PyDict [("option_id", PyInt option_id)]))]
  /\ forall response body,
       server (sent w)
         (mkRequest POST
            (base_url (self w) ++ "/polls/" ++ str_of_int poll_id ++ "/vote")
            None None
            (Some (PyDict
                     [("Authorization",
                       PyStr ("Bearer " ++ py_str py_repr (token (self w))));
                      ("Content-Type", PyStr "application/json")]))
            (Some (PyDict [("option_id", PyInt option_id)])))
       = Answer response ->
       200 <= status_code response < 300 ->
       decoded response = Some body ->
       fst (vote_on_poll py_repr server poll_id option_id w) = inr body.
Proof.
  intros Htok. split.
  - apply calls_made_app. unfold_method. rewrite Htok. cbn [negb].
    split_run; reflexivity.
  - intros response body Hans Hstatus Hjson.
    unfold_method. rewrite Htok. cbn [negb]. rewrite Hans.
    rewrite (is_http_error_2xx _ Hstatus), Hjson. reflexivity.
Qed.

(** C5: [get_polls] makes one call, a GET to [/polls] without headers whose
    query parameters are [skip] and [limit] exactly as passed, whatever
    their values; an argument left out is 0 for [skip] and 10 for [limit];
    on a 2xx answer the decoded body is returned as it is. *)
Theorem get_polls_request_and_result
    (server : Server) (skip limit : Z) (w : World) :
  calls_made w (snd (get_polls server skip limit w))
  = [mkRequest GET (base_url (self w) ++ "/polls")
       (Some (PyDict [("skip", PyInt skip); ("limit", PyInt limit)]))
       None None None]
  /\ get_polls_call server None None w = get_polls server 0 10 w
  /\ get_polls_call server (Some skip) None w = get_polls server skip 10 w
  /\ get_polls_call server None (Some limit) w = get_polls server 0 limit w
  /\ get_polls_call server (Some skip) (Some limit) w
     = get_polls server skip limit w
  /\ forall response body,
       server (sent w)
         (mkRequest GET (base_url (self w) ++ "/polls")
            (Some (PyDict [("skip", PyInt skip); ("limit", PyInt limit)]))
            None None None)
       = Answer response ->
       200 <= status_code response < 300 ->
       decoded response = Some body ->
       fst (get_polls server skip limit w) = inr body.
Proof.
  split; [| repeat split].
  - apply calls_made_app. unfold_method. split_run; reflexivity.
  - intros response body Hans Hstatus Hjson.
    unfold_method. rewrite Hans.
    rewrite (is_http_error_2xx _ Hstatus), Hjson. reflexivity.
Qed.

(** C6: with a token set, [delete_poll] makes one call, a DELETE to
    [/polls/{poll_id}] with the header [Authorization: Bearer <token>]; on a
    2xx answer it returns [None] and raises nothing. *)
Theorem delete_poll_request_and_result
    (py_repr : pyval -> string) (server : Server) (poll_id : Z) (w : World) :
  py_truthy (token (self w)) = true ->
  calls_made w (snd (delete_poll py_repr server poll_id w))
  = [mkRequest DELETE
       (base_url (self w) ++ "/polls/" ++ str_of_int poll_id)
       None None
       (Some (PyDict
                [("Authorization",
                  PyStr ("Bearer " ++ py_str py_repr (token (self w))))]))
       None]
  /\ forall response,
       server (sent w)
         (mkRequest DELETE
            (base_url (self w) ++ "/polls/" ++ str_of_int poll_id)
            None None
            (Some (PyDict
                     [("Authorization",
                       PyStr ("Bearer " ++ py_str py_repr (token (self w))))]))
            None)
       = Answer response ->
       200 <= status_code response < 300 ->
       fst (delete_poll py_repr server poll_id w) = inr PyNone.
Proof.
  intros Htok. split.
  - apply calls_made_app. unfold_method. rewrite Htok. cbn [negb].
    split_run; reflexivity.
  - intros response Hans Hstatus.
    unfold_method. rewrite Htok. cbn [negb]. rewrite Hans.
    rewrite (is_http_error_2xx _ Hstatus). reflexivity.
Qed.

(** C4 as stated fails: after [set_token("")] a token is set (it is not
    [None]), yet [vote_on_poll(42, 7)] sends no POST and raises the local
    authentication error. *)
Lemma vote_on_poll_with_empty_token :
  let w := snd (set_token (PyStr "") anonymous) in
  token (self w) <> PyNone
  /\ calls_made w (snd (vote_on_poll repr_unused (always vote_response) 42 7 w))
     = []
  /\ fst (vote_on_poll repr_unused (always vote_response) 42 7 w)
     = inl (ValueError auth_required).
Proof.
  cbv zeta. split; [discriminate | split; reflexivity].
Qed.

(** C6 as stated fails: after [set_token("")] a token is set (it is not
    [None]), yet [delete_poll(5)] sends no DELETE and raises the local
    authentication error instead of returning. *)
Lemma delete_poll_with_empty_token :
  let w := snd (set_token (PyStr "") anonymous) in
  token (self w) <> PyNone
  /\ calls_made w (snd (delete_poll repr_unused (always no_content) 5 w)) = []
  /\ fst (delete_poll repr_unused (always no_content) 5 w)
     = inl (ValueError auth_required).
Proof.
  cbv zeta. split; [discriminate | split; reflexivity].
Qed.

(** ** Witnesses on concrete runs *)

Lemma login_posts_form_and_stores_token_witness :
  fst (login (always token_response) "alice" "secret" anonymous)
  = inr (PyDict token_entries)
  /\ self (snd (login (always token_response) "alice" "secret" anonymous))
     = mkClient (base_url (self anonymous)) (PyStr "tok123").
Proof.
  apply (proj2 (login_posts_form_and_stores_token
                  (always token_response) "alice" "secret" anonymous)
           token_response token_entries (PyStr "tok123")).
  - reflexivity.
  - cbn; lia.
  - reflexivity.
  - reflexivity.
Defined.

Lemma http_error_propagates_witness :
  makes_call (OpVoteOnPoll 42 7) = true
  /\ passes_guard (OpVoteOnPoll 42 7) (self logged_in) = true
  /\ exists rq,
       calls_made logged_in
         (snd (exec repr_unused (always unauthorized) (OpVoteOnPoll 42 7)
                 logged_in))
       = [rq]
       /\ fst (exec repr_unused (always unauthorized) (OpVoteOnPoll 42 7)
                 logged_in)
          = inl (HTTPError unauthorized)
       /\ self (snd (exec repr_unused (always unauthorized)
                       (OpVoteOnPoll 42 7) logged_in))
          = self logged_in.
Proof.
  split; [reflexivity |]. split; [reflexivity |].
  destruct (http_error_propagates repr_unused (always unauthorized)
              (OpVoteOnPoll 42 7) logged_in eq_refl eq_refl)
    as (rq & Hcall & Hres).
  exists rq. split; [exact Hcall |].
  apply (Hres unauthorized).
  - reflexivity.
  - cbn; lia.
Defined.

Lemma vote_on_poll_request_and_result_witness :
  py_truthy (token (self logged_in)) = true
  /\ calls_made logged_in
       (snd (vote_on_poll repr_unused (always vote_response) 42 7 logged_in))
     = [mkRequest POST "http://localhost:8000/polls/42/vote" None None
          (Some (PyDict [("Authorization", PyStr "Bearer tok123");
                         ("Content-Type", PyStr "application/json")]))
          (Some (PyDict [("option_id", PyInt 7)]))]
  /\ fst (vote_on_poll repr_unused (always vote_response) 42 7 logged_in)
     = inr vote_body.
Proof.
  split; [reflexivity |].
  destruct (vote_on_poll_request_and_result repr_unused (always vote_response)
              42 7 logged_in eq_refl) as [Hcall Hres].
  split.
  - exact Hcall.
  - apply (Hres vote_response vote_body).
    + reflexivity.
    + cbn; lia.
    + reflexivity.
Defined.

Lemma get_polls_request_and_result_witness :
  calls_made anonymous (snd (get_polls (always empty_page) 20 5 anonymous))
  = [mkRequest GET "http://localhost:8000/polls"
       (Some (PyDict [("skip", PyInt 20); ("limit", PyInt 5)]))
       None None None]
  /\ fst (get_polls (always empty_page) 20 5 anonymous) = inr (PyList []).
Proof.
  destruct (get_polls_request_and_result (always empty_page) 20 5 anonymous)
    as (Hcall & _ & _ & _ & _ & Hres).
  split.
  - exact Hcall.
  - apply (Hres empty_page (PyList [])).
    + reflexivity.
    + cbn; lia.
    + reflexivity.
Defined.

Lemma delete_poll_request_and_result_witness :
  py_truthy (token (self logged_in)) = true
  /\ calls_made logged_in
       (snd (delete_poll repr_unused (always no_content) 5 logged_in))
     = [mkRequest DELETE "http://localhost:8000/polls/5" None None
          (Some (PyDict [("Authorization", PyStr "Bearer tok123")]))
          None]
  /\ fst (delete_poll repr_unused (always no_content) 5 logged_in) = inr PyNone.
Proof.
  split; [reflexivity |].
  destruct (delete_poll_request_and_result repr_unused (always no_content)
              5 logged_in eq_refl) as [Hcall Hres].
  split.
  - exact Hcall.
  - apply (Hres no_content).
    + reflexivity.
    + cbn; lia.
Defined.

Lemma http_error_iff_4xx_5xx_witness :
  makes_call (OpCreatePoll "Best color?" [PyStr "Red"; PyStr "Blue"]) = true
  /\ passes_guard (OpCreatePoll "Best color?" [PyStr "Red"; PyStr "Blue"])
       (self logged_in) = true
  /\ ~ (400 <= status_code token_on_300 < 600)
  /\ fst (exec repr_unused (always token_on_300)
            (OpCreatePoll "Best color?" [PyStr "Red"; PyStr "Blue"])
            logged_in)
     = inr (PyDict token_entries).
Proof.
  split; [reflexivity |]. split; [reflexivity |].
  split; [cbn; lia |].
  destruct (http_error_iff_4xx_5xx repr_unused (always token_on_300)
              (OpCreatePoll "Best color?" [PyStr "Red"; PyStr "Blue"])
              logged_in eq_refl eq_refl)
    as (rq & _ & Hres).
  destruct (Hres token_on_300 eq_refl) as (_ & _ & Hgo).
  apply Hgo. cbn; lia.
Defined.

Lemma client_state_frame_witness :
  token (self (snd (exec repr_unused (always token_response)
                      (OpLogin "alice" "secret") anonymous)))
  <> token (self anonymous)
  /\ ((exists t, OpLogin "alice" "secret" = OpSetToken t)
      \/ (exists u p v,
             OpLogin "alice" "secret" = OpLogin u p
             /\ fst (exec repr_unused (always token_response)
                       (OpLogin "alice" "secret") anonymous)
                = inr v)).
Proof.
  split.
  - cbv. discriminate.
  - apply (proj1 (proj2 (client_state_frame repr_unused (always token_response)
                           (OpLogin "alice" "secret") anonymous))).
    cbv. discriminate.
Defined.

Lemma failed_login_keeps_token_witness :
  fst (login (always unauthorized) "alice" "wrong" logged_in)
  = inl (HTTPError unauthorized)
  /\ token (self (snd (login (always unauthorized) "alice" "wrong" logged_in)))
     = PyStr "tok123".
Proof.
  split; [reflexivity |].
  exact (proj2 (failed_login_keeps_token (always unauthorized)
                  "alice" "wrong" logged_in unauthorized eq_refl)).
Defined.

Lemma unauthenticated_get_ignores_token_witness :
  unauthenticated_get (OpGetPollResults 3) = true
  /\ fst (exec repr_unused (always not_found) (OpGetPollResults 3)
            (mkWorld (mkClient default_base_url PyNone) []))
     = fst (exec repr_unused (always not_found) (OpGetPollResults 3)
              (mkWorld (mkClient default_base_url (PyStr "tok123")) [])).
Proof.
  split; [reflexivity |].
  destruct (unauthenticated_get_ignores_token repr_unused (always not_found)
              (always not_found) (OpGetPollResults 3) default_base_url
              PyNone (PyStr "tok123") [] eq_refl)
    as (rq & _ & _ & _ & Hsame).
  apply Hsame. reflexivity.
Defined.

(** ** Further runs *)

(** After [login("alice", "secret")] the authenticated calls carry the
    token that the server issued. *)
Example bearer_after_login :
  sent (snd (vote_on_poll repr_unused (always vote_response) 42 7
               (snd (login (always token_response) "alice" "secret"
                       anonymous))))
  = [mkRequest POST "http://localhost:8000/login" None
       (Some (PyDict [("username", PyStr "alice");
                      ("password", PyStr "secret")]))
       None None;
     mkRequest POST "http://localhost:8000/polls/42/vote" None None
       (Some (PyDict [("Authorization", PyStr "Bearer tok123");
                      ("Content-Type", PyStr "application/json")]))
       (Some (PyDict [("option_id", PyInt 7)]))].
Proof. reflexivity. Qed.

(** [create_poll("Best color?", ["Red", "Blue"])] posts the question and
    the options as JSON. *)
Example create_poll_payload :
  map json (sent (snd (create_poll repr_unused (always vote_response)
                         "Best color?" [PyStr "Red"; PyStr "Blue"]
                         logged_in)))
  = [Some (PyDict [("question", PyStr "Best color?");
                   ("options", PyList [PyStr "Red"; PyStr "Blue"])])].
Proof. reflexivity. Qed.

(** A 2xx answer whose body is a list, not an object, makes [login] raise
    [TypeError] and keep the token. *)
Example login_without_access_token :
  login (always empty_page) "alice" "secret" logged_in
  = (inl TypeError,
     mkWorld (self logged_in)
       [mkRequest POST "http://localhost:8000/login" None
          (Some (PyDict [("username", PyStr "alice");
                         ("password", PyStr "secret")]))
          None None]).
Proof. reflexivity. Qed.

(** * Further properties of the methods *)

(** ** Tactics for a run whose call is known *)

(** From [In rq (calls_made ...)] on an unfolded method, learns that [rq]
    is the call written in the method. *)
Ltac pin_call Hin :=
  revert Hin; split_run; rewrite ?calls_made_one, ?calls_made_self;
  (intros [Hin | []]); subst.

(** Names that call [rq] in the rest of the proof. *)
Ltac name_call Hin rq Hrq :=
  match type of Hin with
  | context [?srv (sent ?w) ?RQ] =>
      assert (Hrq : RQ = rq) by (pin_call Hin; reflexivity)
  end.

Lemma not_http_error response :
  ~ (400 <= status_code response < 600) -> is_http_error response = false.
Proof.
  intros H. destruct (is_http_error response) eqn:E; [| reflexivity].
  apply is_http_error_iff in E. contradiction.
Qed.

(** ** The remaining requests *)

(** X1: with a token that passes the guard, [create_poll] makes one call, a
    POST to [/polls] with the JSON body [{"question": ..., "options": ...}]
    and the two headers of an authenticated JSON call; when the answer has
    no error status and decodes, the decoded body is returned and the client
    is as it was. *)
Theorem create_poll_request_and_result
    (py_repr : pyval -> string) (server : Server) (question : string)
    (options : list pyval) (w : World) :
  py_truthy (token (self w)) = true ->
  calls_made w (snd (create_poll py_repr server question options w))
  = [mkRequest POST (base_url (self w) ++ "/polls") None None
       (Some (PyDict
                [("Authorization",
                  PyStr ("Bearer " ++ py_str py_repr (token (self w))));
                 ("Content-Type", PyStr "application/json")]))
       (Some (PyDict [("question", PyStr question);
                      ("options", PyList options)]))]
  /\ forall response body,
       server (sent w)
         (mkRequest POST (base_url (self w) ++ "/polls") None None
            (Some (PyDict
                     [("Authorization",
                       PyStr ("Bearer " ++ py_str py_repr (token (self w))));
                      ("Content-Type", PyStr "application/json")]))
            (Some (PyDict [("question", PyStr question);
                           ("options", PyList options)])))
       = Answer response ->
       ~ (400 <= status_code response < 600) ->
       decoded response = Some body ->
       fst (create_poll py_repr server question options w) = inr body
       /\ self (snd (create_poll py_repr server question options w)) = self w.
Proof.
  intros Htok. split.
  - apply calls_made_app. unfold_method. rewrite Htok. cbn [negb].
    split_run; reflexivity.
  - intros response body Hans Hstatus Hjson.
    unfold_method. rewrite Htok. cbn [negb]. rewrite Hans.
    rewrite (not_http_error _ Hstatus), Hjson. split; reflexivity.
Qed.

Lemma create_poll_request_and_result_witness :
  py_truthy (token (self logged_in)) = true
  /\ calls_made logged_in
       (snd (create_poll repr_unused (always created) "Best color?"
               [PyStr "Red"; PyStr "Blue"] logged_in))
     = [mkRequest POST "http://localhost:8000/polls" None None
          (Some (PyDict [("Authorization", PyStr "Bearer tok123");
                         ("Content-Type", PyStr "application/json")]))
          (Some (PyDict [("question", PyStr "Best color?");
                         ("options", PyList [PyStr "Red"; PyStr "Blue"])]))]
  /\ fst (create_poll repr_unused (always created) "Best color?"
            [PyStr "Red"; PyStr "Blue"] logged_in)
     = inr poll_body.
Proof.
  split; [reflexivity |].
  destruct (create_poll_request_and_result repr_unused (always created)
              "Best color?" [PyStr "Red"; PyStr "Blue"] logged_in eq_refl)
    as [Hcall Hres].
  split.
  - exact Hcall.
  - apply (Hres created poll_body).
    + reflexivity.
    + cbn; lia.
    + reflexivity.
Defined.

(** X2: [get_poll] needs no token: it makes one call, a GET to
    [/polls/{poll_id}] without parameters, headers or body; when the answer
    has no error status and decodes, the decoded body is returned and the
    client is as it was. *)
Theorem get_poll_request_and_result
    (server : Server) (poll_id : Z) (w : World) :
  calls_made w (snd (get_poll server poll_id w))
  = [mkRequest GET (base_url (self w) ++ "/polls/" ++ str_of_int poll_id)
       None None None None]
  /\ forall response body,
       server (sent w)
         (mkRequest GET (base_url (self w) ++ "/polls/" ++ str_of_int poll_id)
            None None None None)
       = Answer response ->
       ~ (400 <= status_code response < 600) ->
       decoded response = Some body ->
       fst (get_poll server poll_id w) = inr body
       /\ self (snd (get_poll server poll_id w)) = self w.
Proof.
  split.
  - apply calls_made_app. unfold_method. split_run; reflexivity.
  - intros response body Hans Hstatus Hjson.
    unfold_method. rewrite Hans.
    rewrite (not_http_error _ Hstatus), Hjson. split; reflexivity.
Qed.

Lemma get_poll_request_and_result_witness :
  calls_made anonymous (snd (get_poll (always poll_response) 7 anonymous))
  = [mkRequest GET "http://localhost:8000/polls/7" None None None None]
  /\ fst (get_poll (always poll_response) 7 anonymous) = inr poll_body.
Proof.
  destruct (get_poll_request_and_result (always poll_response) 7 anonymous)
    as [Hcall Hres].
  split.
  - exact Hcall.
  - apply (Hres poll_response poll_body).
    + reflexivity.
    + cbn; lia.
    + reflexivity.
Defined.

(** X3: [get_poll_results] needs no token: it makes one call, a GET to
    [/polls/{poll_id}/results] without parameters, headers or body; when
    the answer has no error status and decodes, the decoded body is returned
    and the client is as it was. *)
Theorem get_poll_results_request_and_result
    (server : Server) (poll_id : Z) (w : World) :
  calls_made w (snd (get_poll_results server poll_id w))
  = [mkRequest GET
       (base_url (self w) ++ "/polls/" ++ str_of_int poll_id ++ "/results")
       None None None None]
  /\ forall response body,
       server (sent w)
         (mkRequest GET
            (base_url (self w) ++ "/polls/" ++ str_of_int poll_id ++ "/results")
            None None None None)
       = Answer response ->
       ~ (400 <= status_code response < 600) ->
       decoded response = Some body ->
       fst (get_poll_results server poll_id w) = inr body
       /\ self (snd (get_poll_results server poll_id w)) = self w.
Proof.
  split.
  - apply calls_made_app. unfold_method. split_run; reflexivity.
  - intros response body Hans Hstatus Hjson.
    unfold_method. rewrite Hans.
    rewrite (not_http_error _ Hstatus), Hjson. split; reflexivity.
Qed.

Lemma get_poll_results_request_and_result_witness :
  calls_made logged_in
    (snd (get_poll_results (always poll_response) (-3) logged_in))
  = [mkRequest GET "http://localhost:8000/polls/-3/results"
       None None None None]
  /\ fst (get_poll_results (always poll_response) (-3) logged_in)
     = inr poll_body.
Proof.
  destruct (get_poll_results_request_and_result (always poll_response) (-3)
              logged_in) as [Hcall Hres].
  split.
  - exact Hcall.
  - apply (Hres poll_response poll_body).
    + reflexivity.
    + cbn; lia.
    + reflexivity.
Defined.

(** ** Failures other than an HTTP status *)

(** X4: whatever the operation, when the transport fails the call it made,
    the operation ends in that transport exception, untranslated; the call
    is the only one (no retry) and the client is as it was. *)
Theorem transport_failure_propagates
    (py_repr : pyval -> string) (server : Server) (op : Op) (w : World)
    (rq : Request) (detail : string) :
  In rq (calls_made w (snd (exec py_repr server op w))) ->
  server (sent w) rq = Failure detail ->
  fst (exec py_repr server op w) = inl (RequestException detail)
  /\ calls_made w (snd (exec py_repr server op w)) = [rq]
  /\ self (snd (exec py_repr server op w)) = self w.
Proof.
  intros Hin Hfail.
  destruct (exec_call_inv _ _ _ _ _ Hin) as [Hsent Hout].
  rewrite Hfail in Hout. destruct Hout as [Hres Hself].
  repeat split; [exact Hres | | exact Hself].
  apply calls_made_app. exact Hsent.
Qed.

Lemma transport_failure_propagates_witness :
  fst (exec repr_unused unreachable (OpLogin "alice" "secret") logged_in)
  = inl (RequestException "connection refused")
  /\ calls_made logged_in
       (snd (exec repr_unused unreachable (OpLogin "alice" "secret") logged_in))
     = [mkRequest POST "http://localhost:8000/login" None
          (Some (PyDict [("username", PyStr "alice");
                         ("password", PyStr "secret")]))
          None None]
  /\ self (snd (exec repr_unused unreachable (OpLogin "alice" "secret")
                  logged_in))
     = self logged_in.
Proof.
  apply (transport_failure_propagates repr_unused unreachable
           (OpLogin "alice" "secret") logged_in
           (mkRequest POST "http://localhost:8000/login" None
              (Some (PyDict [("username", PyStr "alice");
                             ("password", PyStr "secret")]))
              None None)
           "connection refused").
  - left. reflexivity.
  - reflexivity.
Defined.

(** X5: every method that decodes the body ([login], [vote_on_poll],
    [get_polls], [get_poll], [get_poll_results], [create_poll]) ends in
    [JSONDecodeError] when its call is answered without an error status but
    with a body that does not decode (an empty 204, say); the call has been
    made all the same, and the client is as it was. *)
Theorem undecodable_body_raises
    (py_repr : pyval -> string) (server : Server) (op : Op) (w : World)
    (rq : Request) (response : Response) :
  returns_body op = true ->
  In rq (calls_made w (snd (exec py_repr server op w))) ->
  server (sent w) rq = Answer response ->
  ~ (400 <= status_code response < 600) ->
  decoded response = None ->
  fst (exec py_repr server op w) = inl JSONDecodeError
  /\ calls_made w (snd (exec py_repr server op w)) = [rq]
  /\ self (snd (exec py_repr server op w)) = self w.
Proof.
  intros Hop Hin Hans Hstatus Hjson.
  apply not_http_error in Hstatus.
  destruct op; try discriminate Hop; clear Hop; revert Hin; unfold_method;
    try (destruct (py_truthy (token (self w))); cbn [negb fst snd]);
    intros Hin.
  all: try (rewrite calls_made_self in Hin; destruct Hin).
  all: name_call Hin rq Hrq.
  all: rewrite Hrq in *; rewrite Hans, Hstatus, Hjson; cbn [fst snd self sent].
  all: rewrite calls_made_one; repeat split.
Qed.

Lemma undecodable_body_raises_witness :
  fst (exec repr_unused (always no_content) (OpVoteOnPoll 42 7) logged_in)
  = inl JSONDecodeError
  /\ calls_made logged_in
       (snd (exec repr_unused (always no_content) (OpVoteOnPoll 42 7)
               logged_in))
     = [mkRequest POST "http://localhost:8000/polls/42/vote" None None
          (Some (PyDict [("Authorization", PyStr "Bearer tok123");
                         ("Content-Type", PyStr "application/json")]))
          (Some (PyDict [("option_id", PyInt 7)]))]
  /\ self (snd (exec repr_unused (always no_content) (OpVoteOnPoll 42 7)
                  logged_in))
     = self logged_in.
Proof.
  apply (undecodable_body_raises repr_unused (always no_content)
           (OpVoteOnPoll 42 7) logged_in
           (mkRequest POST "http://localhost:8000/polls/42/vote" None None
              (Some (PyDict [("Authorization", PyStr "Bearer tok123");
                             ("Content-Type", PyStr "application/json")]))
              (Some (PyDict [("option_id", PyInt 7)])))
           no_content).
  - reflexivity.
  - left. reflexivity.
  - reflexivity.
  - cbn; lia.
  - reflexivity.
Defined.

(** X6: [delete_poll] never looks at the body: with a token that passes
    the guard and its call answered, it returns [None] exactly when the
    status is outside 400..599, whether or not the body decodes. *)
Theorem delete_poll_ignores_body
    (py_repr : pyval -> string) (server : Server) (poll_id : Z) (w : World)
    (rq : Request) (response : Response) :
  In rq (calls_made w (snd (delete_poll py_repr server poll_id w))) ->
  server (sent w) rq = Answer response ->
  (fst (delete_poll py_repr server poll_id w) = inr PyNone
   <-> ~ (400 <= status_code response < 600)).
Proof.
  intros Hin Hans. revert Hin. unfold_method.
  destruct (py_truthy (token (self w))); cbn [negb fst snd]; intros Hin.
  2: rewrite calls_made_self in Hin; destruct Hin.
  name_call Hin rq Hrq.
  rewrite Hrq in *. rewrite Hans.
  destruct (is_http_error response) eqn:E; cbn [fst].
  - split; [intros H; discriminate H |].
    intros H. apply is_http_error_iff in E. contradiction.
  - split; [| reflexivity].
    intros _ H. apply is_http_error_iff in H. congruence.
Qed.

Lemma delete_poll_ignores_body_witness :
  fst (delete_poll repr_unused (always multiple_choices) 5 logged_in)
  = inr PyNone
  <-> ~ (400 <= status_code multiple_choices < 600).
Proof.
  apply (delete_poll_ignores_body repr_unused (always multiple_choices) 5
           logged_in
           (mkRequest DELETE "http://localhost:8000/polls/5" None None
              (Some (PyDict [("Authorization", PyStr "Bearer tok123")]))
              None)
           multiple_choices).
  - left. reflexivity.
  - reflexivity.
Defined.

(** ** [login] in full *)

(** X7: when the answer to [login] has no error status and decodes, but the
    decoded body holds no [access_token], [login] raises after the call and
    stores nothing: [KeyError('access_token')] for an object without the
    key, [TypeError] for a body that is not an object. *)
Theorem login_without_token_in_body
    (server : Server) (username password : string) (w : World)
    (response : Response) (body : pyval) :
  server (sent w)
    (mkRequest POST (base_url (self w) ++ "/login") None
       (Some (PyDict [("username", PyStr username);
                      ("password", PyStr password)]))
       None None)
  = Answer response ->
  ~ (400 <= status_code response < 600) ->
  decoded response = Some body ->
  match body with
  | PyDict entries =>
      dict_lookup "access_token" entries = None ->
      fst (login server username password w) = inl (KeyError "access_token")
  | _ => fst (login server username password w) = inl TypeError
  end
  /\ (fst (login server username password w) = inl (KeyError "access_token")
      \/ fst (login server username password w) = inl TypeError ->
      self (snd (login server username password w)) = self w).
Proof.
  intros Hans Hstatus Hjson. apply not_http_error in Hstatus.
  unfold_method. rewrite Hans, Hstatus, Hjson.
  destruct body; cbn [fst snd self]; split; try reflexivity.
  - intros Hkey. rewrite Hkey. reflexivity.
  - destruct (dict_lookup "access_token" entries); cbn [fst snd self];
      intros [H | H]; try discriminate H; reflexivity.
Qed.

Lemma login_without_token_in_body_witness :
  fst (login (always missing_token_response) "alice" "secret" logged_in)
  = inl (KeyError "access_token")
  /\ self (snd (login (always missing_token_response) "alice" "secret"
                  logged_in))
     = self logged_in.
Proof.
  destruct (login_without_token_in_body (always missing_token_response)
              "alice" "secret" logged_in missing_token_response
              (PyDict [("token_type", PyStr "bearer")]))
    as [Hkey Hself].
  - reflexivity.
  - cbn; lia.
  - reflexivity.
  - split.
    + apply Hkey. reflexivity.
    + apply Hself. left. apply Hkey. reflexivity.
Defined.

(** X8: [login] returns a value exactly when its call is answered without
    an error status and the decoded body is an object that holds an
    [access_token]; the value returned is then that whole object. And
    whenever such an answer comes, the token afterwards is the
    [access_token] of the object, whatever it is and whatever the token was
    before. *)
Theorem login_returns_iff
    (server : Server) (username password : string) (w : World) (v : pyval) :
  (fst (login server username password w) = inr v
   <-> exists response entries access_token,
         server (sent w)
           (mkRequest POST (base_url (self w) ++ "/login") None
              (Some (PyDict [("username", PyStr username);
                             ("password", PyStr password)]))
              None None)
         = Answer response
         /\ ~ (400 <= status_code response < 600)
         /\ decoded response = Some (PyDict entries)
         /\ dict_lookup "access_token" entries = Some access_token
         /\ v = PyDict entries)
  /\ forall response entries access_token,
       server (sent w)
         (mkRequest POST (base_url (self w) ++ "/login") None
            (Some (PyDict [("username", PyStr username);
                           ("password", PyStr password)]))
            None None)
       = Answer response ->
       ~ (400 <= status_code response < 600) ->
       decoded response = Some (PyDict entries) ->
       dict_lookup "access_token" entries = Some access_token ->
       fst (login server username password w) = inr (PyDict entries)
       /\ token (self (snd (login server username password w)))
          = access_token.
Proof.
  split; [split |].
  - unfold_method. split_run; intros H; try discriminate H.
    injection H as <-.
    eexists _, _, _. repeat split; try eassumption.
    intros Hs. apply is_http_error_iff in Hs. congruence.
  - intros (response & entries & tok & Hans & Hstatus & Hjson & Hkey & ->).
    apply not_http_error in Hstatus.
    unfold_method. rewrite Hans, Hstatus, Hjson, Hkey. reflexivity.
  - intros response entries tok Hans Hstatus Hjson Hkey.
    apply not_http_error in Hstatus.
    unfold_method. rewrite Hans, Hstatus, Hjson, Hkey. split; reflexivity.
Qed.

(** ** Which call carries the token *)

(** X9: a call made by any operation carries an [Authorization] header
    exactly when the operation is an authenticated one, and the header is
    then [Bearer ] followed by [str] of the token the client holds at that
    moment; [login] and the three reads send none. *)
Theorem authorization_header_law
    (py_repr : pyval -> string) (server : Server) (op : Op) (w : World)
    (rq : Request) :
  In rq (calls_made w (snd (exec py_repr server op w))) ->
  header_of rq "Authorization"
  = if authenticated op
    then Some (PyStr ("Bearer " ++ py_str py_repr (token (self w))))
    else None.
Proof.
  intros Hin. revert Hin.
  destruct op; unfold_method;
    try (destruct (py_truthy (token (self w))); cbn [negb fst snd]);
    intros Hin.
  all: try (rewrite calls_made_self in Hin; destruct Hin).
  all: try (rewrite calls_made_none in Hin; destruct Hin).
  all: pin_call Hin; reflexivity.
Qed.

Lemma authorization_header_law_witness :
  header_of
    (mkRequest DELETE "http://localhost:8000/polls/5" None None
       (Some (PyDict [("Authorization", PyStr "Bearer tok123")])) None)
    "Authorization"
  = if authenticated (OpDeletePoll 5)
    then Some (PyStr ("Bearer " ++ py_str repr_unused (token (self logged_in))))
    else None.
Proof.
  apply (authorization_header_law repr_unused (always no_content)
           (OpDeletePoll 5) logged_in).
  left. reflexivity.
Defined.

Lemma login_returns_iff_witness :
  ~ (400 <= status_code token_on_300 < 600)
  /\ fst (login (always token_on_300) "alice" "secret" anonymous)
     = inr (PyDict token_entries)
  /\ token (self (snd (login (always token_on_300) "alice" "secret"
                         anonymous)))
     = PyStr "tok123".
Proof.
  split; [cbn; lia |].
  apply (proj2 (login_returns_iff (always token_on_300) "alice" "secret"
                  anonymous (PyDict token_entries))
           token_on_300 token_entries (PyStr "tok123")).
  - reflexivity.
  - cbn; lia.
  - reflexivity.
  - reflexivity.
Defined.

(** ** What a token is worth once stored *)

Lemma guard_rejects py_repr server op w :
  authenticated op = true ->
  py_truthy (token (self w)) = false ->
  exec py_repr server op w = (inl (ValueError auth_required), w).
Proof.
  intros Hop Htok.
  destruct op; try discriminate Hop; unfold_method; rewrite Htok;
    reflexivity.
Qed.

Lemma guard_passes py_repr server op w :
  authenticated op = true ->
  py_truthy (token (self w)) = true ->
  exists rq,
    calls_made w (snd (exec py_repr server op w)) = [rq]
    /\ header_of rq "Authorization"
       = Some (PyStr ("Bearer " ++ py_str py_repr (token (self w)))).
Proof.
  intros Hop Htok.
  destruct op; try discriminate Hop; unfold_method; rewrite Htok;
    cbn [negb]; eexists; (split; [apply calls_made_app; split_run; reflexivity
                                 | reflexivity]).
Qed.

Lemma login_inr_inv server username password w v :
  fst (login server username password w) = inr v ->
  exists entries access_token,
    v = PyDict entries
    /\ dict_lookup "access_token" entries = Some access_token
    /\ self (snd (login server username password w))
       = mkClient (base_url (self w)) access_token.
Proof.
  unfold_method. split_run; intros H; try discriminate H.
  injection H as <-. eexists _, _. repeat split. eassumption.
Qed.

(** X10: [login] stores the [access_token] of the answer without looking
    at it, and the next authenticated call shows it: when the value passes
    the guard, the call goes out with [Bearer ] and [str] of that value;
    when it does not (an empty string, [null], [0]), the call is refused
    with the local authentication error although the login returned. *)
Theorem login_then_authenticated_call
    (py_repr : pyval -> string) (server1 server2 : Server)
    (username password : string) (op : Op) (w : World)
    (entries : list (string * pyval)) :
  authenticated op = true ->
  fst (login server1 username password w) = inr (PyDict entries) ->
  exists access_token,
    dict_lookup "access_token" entries = Some access_token
    /\ if py_truthy access_token
       then exists rq,
              calls_made (snd (login server1 username password w))
                (snd (exec py_repr server2 op
                        (snd (login server1 username password w))))
              = [rq]
              /\ header_of rq "Authorization"
                 = Some (PyStr ("Bearer " ++ py_str py_repr access_token))
       else exec py_repr server2 op (snd (login server1 username password w))
            = (inl (ValueError auth_required),
               snd (login server1 username password w)).
Proof.
  intros Hop Hlogin.
  destruct (login_inr_inv _ _ _ _ _ Hlogin)
    as (entries' & tok & Heq & Hkey & Hself).
  injection Heq as <-. exists tok. split; [exact Hkey |].
  assert (Htok : token (self (snd (login server1 username password w))) = tok)
    by (rewrite Hself; reflexivity).
  destruct (py_truthy tok) eqn:E.
  - destruct (guard_passes py_repr server2 op _ Hop
                (eq_trans (f_equal py_truthy Htok) E)) as (rq & Hcall & Hhdr).
    exists rq. split; [exact Hcall |]. rewrite Hhdr, Htok. reflexivity.
  - apply guard_rejects; [exact Hop |]. rewrite Htok. exact E.
Qed.

Lemma login_then_authenticated_call_witness :
  exists access_token,
    dict_lookup "access_token" blank_token_entries = Some access_token
    /\ if py_truthy access_token
       then exists rq,
              calls_made
                (snd (login (always blank_token_response) "alice" "secret"
                        anonymous))
                (snd (exec repr_unused unreachable (OpCreatePoll "Best color?" [])
                        (snd (login (always blank_token_response) "alice"
                                "secret" anonymous))))
              = [rq]
              /\ header_of rq "Authorization"
                 = Some (PyStr ("Bearer " ++ py_str repr_unused access_token))
       else exec repr_unused unreachable (OpCreatePoll "Best color?" [])
              (snd (login (always blank_token_response) "alice" "secret"
                      anonymous))
            = (inl (ValueError auth_required),
               snd (login (always blank_token_response) "alice" "secret"
                      anonymous)).
Proof.
  apply (login_then_authenticated_call repr_unused
           (always blank_token_response) unreachable "alice" "secret"
           (OpCreatePoll "Best color?" []) anonymous blank_token_entries).
  - reflexivity.
  - reflexivity.
Defined.

(** X11: [set_token] stores any value without a check and without a call,
    and it replaces whatever token was there: the next authenticated call
    carries [Bearer ] and [str] of the new value when it passes the guard,
    and is refused with the local authentication error when it does not. *)
Theorem set_token_then_authenticated_call
    (py_repr : pyval -> string) (server : Server) (new_token : pyval)
    (op : Op) (w : World) :
  authenticated op = true ->
  sent (snd (set_token new_token w)) = sent w
  /\ if py_truthy new_token
     then exists rq,
            calls_made w
              (snd (exec py_repr server op (snd (set_token new_token w))))
            = [rq]
            /\ header_of rq "Authorization"
               = Some (PyStr ("Bearer " ++ py_str py_repr new_token))
     else exec py_repr server op (snd (set_token new_token w))
          = (inl (ValueError auth_required), snd (set_token new_token w)).
Proof.
  intros Hop. split; [reflexivity |].
  destruct (py_truthy new_token) eqn:E.
  - destruct (guard_passes py_repr server op (snd (set_token new_token w))
                Hop E) as (rq & Hcall & Hhdr).
    exists rq. split; [exact Hcall | exact Hhdr].
  - apply guard_rejects; [exact Hop | exact E].
Qed.

Lemma set_token_then_authenticated_call_witness :
  authenticated (OpVoteOnPoll 42 7) = true
  /\ sent (snd (set_token (PyStr "fresh-token") logged_in)) = sent logged_in
  /\ if py_truthy (PyStr "fresh-token")
     then exists rq,
            calls_made logged_in
              (snd (exec repr_unused (always vote_response) (OpVoteOnPoll 42 7)
                      (snd (set_token (PyStr "fresh-token") logged_in))))
            = [rq]
            /\ header_of rq "Authorization"
               = Some (PyStr ("Bearer " ++ py_str repr_unused
                                             (PyStr "fresh-token")))
     else exec repr_unused (always vote_response) (OpVoteOnPoll 42 7)
            (snd (set_token (PyStr "fresh-token") logged_in))
          = (inl (ValueError auth_required),
             snd (set_token (PyStr "fresh-token") logged_in)).
Proof.
  split; [reflexivity |].
  exact (set_token_then_authenticated_call repr_unused (always vote_response)
           (PyStr "fresh-token") (OpVoteOnPoll 42 7) logged_in eq_refl).
Defined.

(** ** What comes back *)

(** X12: no method builds or edits a result: whenever a method that
    returns a body returns [v], it made exactly one call, the call was
    answered without an error status, and [v] is the decoded body of that
    answer. *)
Theorem returned_value_is_decoded_body
    (py_repr : pyval -> string) (server : Server) (op : Op) (w : World)
    (v : pyval) :
  returns_body op = true ->
  fst (exec py_repr server op w) = inr v ->
  exists rq response,
    calls_made w (snd (exec py_repr server op w)) = [rq]
    /\ server (sent w) rq = Answer response
    /\ ~ (400 <= status_code response < 600)
    /\ decoded response = Some v.
Proof.
  intros Hop.
  destruct op; try discriminate Hop; clear Hop; unfold_method;
    try (destruct (py_truthy (token (self w))); cbn [negb fst snd]).
  all: split_run; intros H; try discriminate H; injection H as <-.
  all: eexists _, _; rewrite calls_made_one.
  all: repeat split; try eassumption.
  all: intros Hs; apply is_http_error_iff in Hs; congruence.
Qed.

Lemma returned_value_is_decoded_body_witness :
  exists rq response,
    calls_made anonymous
      (snd (exec repr_unused (always empty_page) (OpGetPolls 0 10) anonymous))
    = [rq]
    /\ always empty_page (sent anonymous) rq = Answer response
    /\ ~ (400 <= status_code response < 600)
    /\ decoded response = Some (PyList []).
Proof.
  apply (returned_value_is_decoded_body repr_unused (always empty_page)
           (OpGetPolls 0 10) anonymous (PyList [])).
  - reflexivity.
  - reflexivity.
Defined.

(** X13: where a method failed, and what had been sent by then. The
    [ValueError] with the fixed authentication message is raised only by
    the guard of an authenticated method, on a token that fails the test,
    with no call made and the world as it was. A failure of the subscript
    ([KeyError], always on [access_token], or [TypeError]) belongs to
    [login] alone; a failure of [response.json()] ([JSONDecodeError], which
    an [except ValueError] catches as well) belongs to a method that decodes
    the body; an [HTTPError] holds the answer of the server to the call,
    with a status in 400..599; a [RequestException] is the failure of the
    call inside [requests]. In each of these cases exactly one call has
    gone out. *)
Theorem exception_tells
    (py_repr : pyval -> string) (server : Server) (op : Op) (w : World)
    (e : exn) :
  fst (exec py_repr server op w) = inl e ->
  match e with
  | ValueError msg =>
      msg = auth_required ->
      authenticated op = true
      /\ py_truthy (token (self w)) = false
      /\ snd (exec py_repr server op w) = w
  | KeyError key =>
      key = "access_token" /\ (exists u p, op = OpLogin u p)
      /\ exists rq, calls_made w (snd (exec py_repr server op w)) = [rq]
  | TypeError =>
      (exists u p, op = OpLogin u p)
      /\ exists rq, calls_made w (snd (exec py_repr server op w)) = [rq]
  | JSONDecodeError =>
      returns_body op = true
      /\ exists rq response,
           calls_made w (snd (exec py_repr server op w)) = [rq]
           /\ server (sent w) rq = Answer response
           /\ decoded response = None
  | HTTPError response =>
      400 <= status_code response < 600
      /\ exists rq,
           calls_made w (snd (exec py_repr server op w)) = [rq]
           /\ server (sent w) rq = Answer response
  | RequestException detail =>
      exists rq,
        calls_made w (snd (exec py_repr server op w)) = [rq]
        /\ server (sent w) rq = Failure detail
  end.
Proof.
  destruct op as [t | u p | | | | | |]; unfold_method;
    try (destruct (py_truthy (token (self w))) eqn:Htok; cbn [negb fst snd]).
  all: split_run; intros H; try discriminate H; injection H as <-.
  all: rewrite ?calls_made_one.
  all: try (intros _).
  all: repeat split; try reflexivity; try (eexists; reflexivity).
  all: try (apply is_http_error_iff; assumption).
  all: try (eexists; split; [reflexivity | eassumption]).
  all: try (eexists _, _; repeat split; eassumption).
  all: exists u, p; reflexivity.
Qed.

Lemma exception_tells_witness :
  "access_token" = "access_token"
  /\ (exists u p, OpLogin "alice" "secret" = OpLogin u p)
  /\ exists rq,
       calls_made logged_in
         (snd (exec repr_unused (always missing_token_response)
                 (OpLogin "alice" "secret") logged_in))
       = [rq].
Proof.
  apply (exception_tells repr_unused (always missing_token_response)
           (OpLogin "alice" "secret") logged_in (KeyError "access_token")).
  reflexivity.
Defined.

(** ** A whole session *)

Lemma prefix_append (b s : string) : String.prefix b (b ++ s) = true.
Proof.
  induction b as [| a b IH]; simpl.
  - destruct s; reflexivity.
  - destruct (ascii_dec a a) as [_ | Hne]; [exact IH | destruct Hne; reflexivity].
Qed.

(** One method call: the base URL stays, the log grows by at most one call,
    and that call goes under the base URL. *)
Lemma exec_step py_repr server op w :
  base_url (self (snd (exec py_repr server op w))) = base_url (self w)
  /\ exists made,
       sent (snd (exec py_repr server op w)) = (sent w ++ made)%list
       /\ (List.length made <= 1)%nat
       /\ Forall (fun rq => String.prefix (base_url (self w)) (url rq) = true)
            made.
Proof.
  destruct op; unfold_method;
    try (destruct (py_truthy (token (self w))); cbn [negb fst snd]).
  all: split; [split_run; reflexivity |].
  all: try (exists []; rewrite app_nil_r; repeat split;
            [apply Nat.le_0_l | constructor]).
  all: eexists [_]; split; [split_run; reflexivity |].
  all: split; [apply Nat.le_refl |].
  all: constructor; [apply prefix_append | constructor].
Qed.

Lemma run_ops_steps py_repr server ops : forall w,
  base_url (self (run_ops py_repr server ops w)) = base_url (self w)
  /\ exists made,
       sent (run_ops py_repr server ops w) = (sent w ++ made)%list
       /\ (List.length made <= List.length ops)%nat
       /\ Forall (fun rq => String.prefix (base_url (self w)) (url rq) = true)
            made.
Proof.
  induction ops as [| op ops IH]; intros w; cbn [run_ops].
  - split; [reflexivity |]. exists []. rewrite app_nil_r.
    repeat split; [apply Nat.le_refl | constructor].
  - destruct (exec_step py_repr server op w) as (Hb & m1 & Hs1 & Hl1 & Hp1).
    destruct (IH (snd (exec py_repr server op w)))
      as (Hb' & m2 & Hs2 & Hl2 & Hp2).
    split; [rewrite Hb'; exact Hb |].
    exists (m1 ++ m2)%list. split; [| split].
    + rewrite Hs2, Hs1, app_assoc. reflexivity.
    + rewrite length_app. cbn [List.length]. lia.
    + apply Forall_app. split; [exact Hp1 |].
      rewrite Hb in Hp2. exact Hp2.
Qed.

(** X14: over any sequence of method calls on one client, exceptions or
    not, the base URL never changes, the earlier calls stay in the log in
    their order, and there is at most one new call per method call: nothing
    is retried and nothing is sent behind the caller's back. *)
Theorem session_log_grows_by_one
    (py_repr : pyval -> string) (server : Server) (ops : list Op)
    (w : World) :
  base_url (self (run_ops py_repr server ops w)) = base_url (self w)
  /\ firstn (List.length (sent w)) (sent (run_ops py_repr server ops w))
     = sent w
  /\ (List.length (calls_made w (run_ops py_repr server ops w))
      <= List.length ops)%nat.
Proof.
  destruct (run_ops_steps py_repr server ops w) as (Hb & made & Hs & Hl & _).
  split; [exact Hb |]. split.
  - rewrite Hs. rewrite firstn_app, Nat.sub_diag, firstn_all.
    cbn [firstn]. apply app_nil_r.
  - rewrite (calls_made_app _ _ _ Hs). exact Hl.
Qed.

(** X15: a client built by [PollyClient(base_url)] sends every call of its
    life to a URL that starts with that base URL, whatever methods are
    called on it and in whatever order. *)
Theorem every_call_under_base_url
    (py_repr : pyval -> string) (server : Server) (base : string)
    (ops : list Op) (rq : Request) :
  In rq (sent (run_ops py_repr server ops (fresh (init base)))) ->
  String.prefix base (url rq) = true.
Proof.
  intros Hin.
  destruct (run_ops_steps py_repr server ops (fresh (init base)))
    as (_ & made & Hs & _ & Hp).
  rewrite Hs in Hin. cbn [fresh sent app] in Hin.
  rewrite Forall_forall in Hp. exact (Hp rq Hin).
Qed.

Lemma every_call_under_base_url_witness :
  String.prefix "https://polly.example"
    (url (mkRequest GET "https://polly.example/polls/7/results"
            None None None None))
  = true.
Proof.
  apply (every_call_under_base_url repr_unused (always token_response)
           "https://polly.example"
           [OpDeletePoll 5; OpLogin "alice" "secret"; OpGetPollResults 7;
            OpVoteOnPoll 42 7]).
  cbv. right. left. reflexivity.
Defined.

(** ** Poll ids in URLs *)

Lemma to_int_proper z : Z.to_int z <> Decimal.Pos Decimal.Nil
                        /\ Z.to_int z <> Decimal.Neg Decimal.Nil.
Proof.
  destruct z as [| p | p]; simpl; split; intros H; try discriminate H;
    injection H as H; exact (Unsigned.to_uint_nonnil p H).
Qed.

(** The decimal text that a method puts in the URL for a poll id reads
    back as that id, negative ids included. *)
Lemma str_of_int_parse (z : Z) : int_of_str (str_of_int z) = Some z.
Proof.
  unfold int_of_str, str_of_int.
  destruct (to_int_proper z) as [Hp Hn].
  rewrite (NilZero.isi _ Hp Hn). simpl. rewrite DecimalZ.of_to. reflexivity.
Qed.

Lemma str_of_int_inj a b : str_of_int a = str_of_int b -> a = b.
Proof.
  intros H. apply (f_equal int_of_str) in H.
  rewrite !str_of_int_parse in H. injection H as H. exact H.
Qed.

Lemma append_nil_r (s : string) : s ++ "" = s.
Proof.
  induction s as [| c s IH]; simpl; [reflexivity | rewrite IH; reflexivity].
Qed.

Lemma append_inv_head (p s t : string) : p ++ s = p ++ t -> s = t.
Proof.
  induction p as [| c p IH]; simpl; intros H; [exact H |].
  injection H as H. exact (IH H).
Qed.

Lemma before_slash_uint d t :
  before_slash (NilEmpty.string_of_uint d ++ t)
  = NilEmpty.string_of_uint d ++ before_slash t.
Proof.
  induction d; simpl; try rewrite IHd; reflexivity.
Qed.

Lemma before_slash_str_of_int z t :
  before_slash (str_of_int z ++ t) = str_of_int z ++ before_slash t.
Proof.
  unfold str_of_int.
  destruct (Z.to_int z) as [d | d]; simpl.
  - destruct d; try (apply (before_slash_uint _ t)). reflexivity.
  - f_equal. destruct d; try (apply (before_slash_uint _ t)). reflexivity.
Qed.

(** Two paths that start with a poll id and go on with a slash, or stop,
    agree only on the same id and the same rest. *)
Lemma poll_path_inj a b t1 t2 :
  before_slash t1 = "" -> before_slash t2 = "" ->
  str_of_int a ++ t1 = str_of_int b ++ t2 -> a = b /\ t1 = t2.
Proof.
  intros H1 H2 H.
  assert (Hab : a = b).
  { apply (f_equal before_slash) in H.
    rewrite !before_slash_str_of_int, H1, H2, !append_nil_r in H.
    apply str_of_int_inj. exact H. }
  subst b. split; [reflexivity |]. exact (append_inv_head _ _ _ H).
Qed.

(** The call of a method does not depend on the server or on the log. *)
Lemma exec_call_of py_repr server op w :
  calls_made w (snd (exec py_repr server op w))
  = match call_of py_repr op (self w) with
    | Some rq => [rq]
    | None => []
    end.
Proof.
  unfold call_of.
  destruct op; unfold_method;
    try (destruct (py_truthy (token (self w))); cbn [negb fst snd]).
  all: split_run; cbn [app hd_error];
    rewrite ?calls_made_one, ?calls_made_self, ?calls_made_none; reflexivity.
Qed.

Lemma poll_url_inj base a b t1 t2 :
  before_slash t1 = "" -> before_slash t2 = "" ->
  base ++ "/polls/" ++ str_of_int a ++ t1
  = base ++ "/polls/" ++ str_of_int b ++ t2 ->
  a = b /\ t1 = t2.
Proof.
  intros H1 H2 H. apply append_inv_head in H.
  apply (append_inv_head "/polls/") in H.
  exact (poll_path_inj _ _ _ _ H1 H2 H).
Qed.

Lemma poll_url_inj_bare base a b t :
  before_slash t = "" ->
  base ++ "/polls/" ++ str_of_int a
  = base ++ "/polls/" ++ str_of_int b ++ t ->
  a = b /\ "" = t.
Proof.
  intros Ht H. rewrite <- (append_nil_r (str_of_int a)) in H.
  exact (poll_url_inj base a b "" t eq_refl Ht H).
Qed.

Lemma poll_url_inj_plain base a b :
  base ++ "/polls/" ++ str_of_int a = base ++ "/polls/" ++ str_of_int b ->
  a = b /\ "" = "".
Proof.
  intros H. apply append_inv_head in H.
  apply (append_inv_head "/polls/") in H.
  split; [exact (str_of_int_inj _ _ H) | reflexivity].
Qed.

(** Closes a goal [op1 = op2] from the equation [H] between their URLs. *)
Ltac same_poll H :=
  first [ apply poll_url_inj in H; [| reflexivity | reflexivity]
        | apply poll_url_inj_plain in H
        | apply poll_url_inj_bare in H; [| reflexivity]
        | symmetry in H; apply poll_url_inj_bare in H; [| reflexivity] ];
  let Ht := fresh "Ht" in
  destruct H as [H Ht]; try discriminate Ht; subst; reflexivity.

Lemma call_of_inj py_repr op1 op2 c rq :
  call_of py_repr op1 c = Some rq -> call_of py_repr op2 c = Some rq ->
  op1 = op2.
Proof.
  unfold call_of.
  destruct op1, op2; unfold_method;
    try (destruct (py_truthy (token c)); cbn [negb fst snd]);
    cbn [app hd_error sent snd]; intros H1 H2; try discriminate H1;
    try discriminate H2; injection H1 as <-; try discriminate H2;
    injection H2 as H2; try discriminate.
  all: try (subst; reflexivity).
  all: same_poll H2.
Qed.

(** X16: the call tells the operation. On one client, two method calls
    that hand the same call to [requests] are the same method with the same
    arguments: no two polls share a URL, [/polls/{id}] is never taken for
    [/polls/{id}/results], and a vote never looks like a new poll. *)
Theorem request_determines_operation
    (py_repr : pyval -> string) (server1 server2 : Server) (op1 op2 : Op)
    (w : World) (rq : Request) :
  In rq (calls_made w (snd (exec py_repr server1 op1 w))) ->
  In rq (calls_made w (snd (exec py_repr server2 op2 w))) ->
  op1 = op2.
Proof.
  rewrite !exec_call_of. intros H1 H2.
  destruct (call_of py_repr op1 (self w)) as [rq1 |] eqn:E1; [| destruct H1].
  destruct (call_of py_repr op2 (self w)) as [rq2 |] eqn:E2; [| destruct H2].
  destruct H1 as [<- | []]. destruct H2 as [Heq | []]. subst rq2.
  exact (call_of_inj py_repr op1 op2 (self w) rq1 E1 E2).
Qed.

Lemma request_determines_operation_witness :
  OpGetPollResults 7 = OpGetPollResults 7.
Proof.
  apply (request_determines_operation repr_unused (always poll_response)
           unreachable (OpGetPollResults 7) (OpGetPollResults 7) anonymous
           (mkRequest GET "http://localhost:8000/polls/7/results"
              None None None None)).
  - left. reflexivity.
  - left. reflexivity.
Defined.
